(** * The data-transformation stage and the database client of the sensor
      pipeline, embedded from [sensor/components/data_transformation.py] and
      [sensor/configuration/mongo_db_connection.py]. *)

From Stdlib Require Import PrimFloat Uint63 ZArith NArith.
From stdpp Require Import gmap strings list.

Local Open Scope string_scope.
Local Open Scope list_scope.

(** ** Python values, exceptions and results *)

(** A cell of a table read from a delimited file: a float (a missing entry is
    the float NaN), a Python int, or text. *)
Inductive cell : Type :=
| Float (f : float)
| Int (z : Z)
| Str (s : string).

(** [Series] is one column; [ndarray] a 2-D array kept as the list of its
    columns (features are per-column objects throughout the stage);
    [DataFrame] the named columns in file order. *)
Abbreviation Series := (list cell).
Abbreviation ndarray := (list (list cell)).
Abbreviation DataFrame := (list (string * list cell)).

(** Modelled from the spec: [SensorException] of [sensor.exception] is not
    among the sources; it is the one exception kind into which the stage
    wraps a failure, and [SensorException(e, sys)] carries the exception [e]
    it was built from.  The other exceptions the stage can see are those of
    the libraries, subclasses of [Exception], kept by class name and
    message. *)
Inductive exn : Type :=
| PyExc (cls msg : string)
| SensorException (error_message : exn).

Inductive result (A : Type) : Type :=
| Return (a : A)
| Raise (e : exn).
Arguments Return {A} a.
Arguments Raise {A} e.

Definition rbind {A B} (r : result A) (k : A -> result B) : result B :=
  match r with
  | Return a => k a
  | Raise e => Raise e
  end.

Declare Scope result_scope.
Delimit Scope result_scope with result.
Notation "x <- r ;; k" := (rbind r (fun x => k))
  (at level 100, r at next level, right associativity) : result_scope.

(** [wraps e c]: [e] is [c] under one or more [SensorException] layers. *)
Inductive wraps : exn -> exn -> Prop :=
| wraps_once c : wraps (SensorException c) c
| wraps_more e c : wraps e c -> wraps (SensorException e) c.

(** ** Stateful code that can raise *)

(** A computation over a state [S]: it ends by returning or by raising, and
    leaves a state either way. *)
Definition SE (S A : Type) : Type := S -> result A * S.

Definition ret {S A} (a : A) : SE S A := fun w => (Return a, w).
Definition raise {S A} (e : exn) : SE S A := fun w => (Raise e, w).
Definition pure {S A} (r : result A) : SE S A := fun w => (r, w).

Definition bind {S A B} (m : SE S A) (k : A -> SE S B) : SE S B :=
  fun w =>
    match m w with
    | (Return a, w') => k a w'
    | (Raise e, w') => (Raise e, w')
    end.

(** [try: body except Exception as e: handler e]. *)
Definition try_except {S A} (body : SE S A) (handler : exn -> SE S A) : SE S A :=
  fun w =>
    match body w with
    | (Return a, w') => (Return a, w')
    | (Raise e, w') => handler e w'
    end.

Declare Scope stage_scope.
Delimit Scope stage_scope with stage.
Notation "x <- m ;; k" := (bind m (fun x => k))
  (at level 100, m at next level, right associativity) : stage_scope.
Notation "m ;;; k" := (bind m (fun _ => k))
  (at level 100, right associativity) : stage_scope.

(** ** The pandas operations the stage calls *)

Definition isna (c : cell) : bool :=
  match c with
  | Float f => PrimFloat.is_nan f
  | _ => false
  end.

Definition values (df : DataFrame) : ndarray := df.*2.

(** [df.drop(columns=[col], axis=1)]: a label that is not a column is a
    [KeyError]. *)
Definition drop (df : DataFrame) (col : string) : result DataFrame :=
  if decide (col ∈ df.*1)
  then Return (filter (fun c => c.1 ≠ col) df)
  else Raise (PyExc "KeyError" col).

(** [df[col]]: the column of that name ([read_csv] hands out distinct
    names), or a [KeyError]. *)
Fixpoint getitem (df : DataFrame) (col : string) : result Series :=
  match df with
  | [] => Raise (PyExc "KeyError" col)
  | (name, s) :: rest => if decide (name = col) then Return s else getitem rest col
  end.

(** [series.replace(d)] for a dictionary from tokens to codes: a value that
    is a key becomes its code, every other value stays as it is. *)
Definition replace_cell (d : gmap string Z) (c : cell) : cell :=
  match c with
  | Str t => match d !! t with
             | Some z => Int z
             | None => c
             end
  | _ => c
  end.

Definition replace (s : Series) (d : gmap string Z) : Series :=
  replace_cell d <$> s.

(** [np.c_[X, np.array(y)]]: [y] becomes the last column; the row counts
    must agree. *)
Definition c_ (X : ndarray) (y : Series) : result ndarray :=
  if forallb (fun col => Nat.eqb (length col) (length y)) X
  then Return (X ++ [y])
  else Raise (PyExc "ValueError" "all the input array dimensions except for the concatenation axis must match exactly").

(** ** Records of the stage *)

(** The artifact and configuration records are declared outside the two
    source files ([sensor.entity]); their fields are those the stage reads
    and writes. *)

Record DataValidationArtifact : Type := {
  valid_train_file_path : string;
  valid_test_file_path : string
}.

Record DataTransformationConfig : Type := {
  cfg_transformed_object_file_path : string;
  cfg_transformed_train_file_path : string;
  cfg_transformed_test_file_path : string
}.

Record DataTransformationArtifact : Type := {
  transformed_object_file_path : string;
  transformed_train_file_path : string;
  transformed_test_file_path : string
}.

Record DataTransformation : Type := {
  data_validation_artifact : DataValidationArtifact;
  data_transformation_config : DataTransformationConfig
}.

(** ** What the stage takes from outside its two source files *)

(** The constants and library objects the stage imports.  [TARGET_COLUMN]
    and [TargetValueMapping().to_dict()] are constants of the repository;
    the scaler and the resampler are estimators of the numeric libraries,
    known to the stage only through [fit], [transform] and [fit_resample];
    [writable] says whether a file can be written at a path.  The resampler
    draws from the process-wide random generator, whose state it is handed
    and hands back. *)
Class Environment : Type := {
  TARGET_COLUMN : string;
  TargetValueMapping_to_dict : gmap string Z;
  scaler_state : Type;
  scaler_fit : ndarray -> result scaler_state;
  scaler_transform : scaler_state -> ndarray -> result ndarray;
  smt_fit_resample : N -> ndarray -> Series -> result (ndarray * Series) * N;
  writable : string -> bool
}.

(** ** The preprocessing pipeline *)

(** The two estimators the stage builds: [SimpleImputer(strategy='constant',
    fill_value=...)] and [RobustScaler()]. *)
Inductive estimator : Type :=
| SimpleImputer (fill_value : cell)
| RobustScaler.

Inductive fitted_estimator `{Env : Environment} : Type :=
| SimpleImputer_fitted (fill_value : cell)
| RobustScaler_fitted (st : scaler_state).

Abbreviation Pipeline := (list (string * estimator)).
Abbreviation FittedPipeline := (list (string * fitted_estimator)).

Section Stage.
Context `{Env : Environment}.

(** Constant imputation: a missing entry becomes the fill value, every
    other entry is kept. *)
Definition impute_cell (fill_value c : cell) : cell :=
  if isna c then fill_value else c.

Definition impute (fill_value : cell) (X : ndarray) : ndarray :=
  (fun col : Series => impute_cell fill_value <$> col) <$> X.

Definition estimator_fit (e : estimator) (X : ndarray) : result fitted_estimator :=
  match e with
  | SimpleImputer fill_value => Return (SimpleImputer_fitted fill_value)
  | RobustScaler => (st <- scaler_fit X ;; Return (RobustScaler_fitted st))%result
  end.

Definition estimator_transform (e : fitted_estimator) (X : ndarray) : result ndarray :=
  match e with
  | SimpleImputer_fitted fill_value => Return (impute fill_value X)
  | RobustScaler_fitted st => scaler_transform st X
  end.

(** [Pipeline.fit]: every step but the last is fitted and applied to the
    data in turn, the last step is fitted on what reaches it. *)
Fixpoint Pipeline_fit (steps : Pipeline) (X : ndarray) : result FittedPipeline :=
  match steps with
  | [] => Return []
  | (name, e) :: rest =>
      (fe <- estimator_fit e X ;;
       match rest with
       | [] => Return [(name, fe)]
       | _ :: _ =>
           Xt <- estimator_transform fe X ;;
           frest <- Pipeline_fit rest Xt ;;
           Return ((name, fe) :: frest)
       end)%result
  end.

(** [Pipeline.transform]: the fitted steps applied in order. *)
Fixpoint Pipeline_transform (steps : FittedPipeline) (X : ndarray) : result ndarray :=
  match steps with
  | [] => Return X
  | (_, fe) :: rest => (Xt <- estimator_transform fe X ;; Pipeline_transform rest Xt)%result
  end.

(** ** The world the stage runs in *)

Inductive file : Type :=
| CsvFile (df : DataFrame)
| NpyFile (array : ndarray)
| PklFile (obj : FittedPipeline).

(** The calls that can raise, with their arguments, and what the run leaves
    behind as a trace: its log lines and, for each call, whether it returned
    or raised. *)
Inductive call : Type :=
| Call_read_csv (file_path : string)
| Call_drop (df : DataFrame) (col : string)
| Call_getitem (df : DataFrame) (col : string)
| Call_fit (X : ndarray)
| Call_transform (obj : FittedPipeline) (X : ndarray)
| Call_fit_resample (X : ndarray) (y : Series)
| Call_c_ (X : ndarray) (y : Series)
| Call_save_numpy_array_data (file_path : string) (array : ndarray)
| Call_save_object (file_path : string) (obj : FittedPipeline).

Inductive event : Type :=
| Info (msg : string)
| InfoArtifact (a : DataTransformationArtifact)
| Returned (c : call)
| Raised (c : call) (e : exn).

(** The files on disk, the state of the random generator, and the trace,
    most recent event first. *)
Record World : Type := {
  fs : gmap string file;
  rng : N;
  trace : list event
}.

Abbreviation M := (SE World).

Definition emit (ev : event) (w : World) : World :=
  {| fs := fs w; rng := rng w; trace := ev :: trace w |}.

Definition logging_info (msg : string) : M unit :=
  fun w => (Return tt, emit (Info msg) w).

(** The log line that prints the artifact record. *)
Definition logging_info_artifact (a : DataTransformationArtifact) : M unit :=
  fun w => (Return tt, emit (InfoArtifact a) w).

(** A call of a library or helper function: it runs, and the trace records
    whether it returned or raised. *)
Definition invoke {A} (c : call) (f : M A) : M A :=
  fun w =>
    match f w with
    | (Return a, w') => (Return a, emit (Returned c) w')
    | (Raise e, w') => (Raise e, emit (Raised c e) w')
    end.

End Stage.

Abbreviation M := (SE World).

Section Run.
Context `{Env : Environment}.
Local Open Scope stage_scope.

(** A library function that touches neither the files nor the generator. *)
Definition lib {A} (c : call) (r : result A) : M A := invoke c (pure r).

(** [pd.read_csv(file_path)]: the table stored at the path; a missing file
    and a file that is not a delimited table are errors. *)
Definition pd_read_csv (file_path : string) : M DataFrame :=
  fun w =>
    match fs w !! file_path with
    | Some (CsvFile df) => (Return df, w)
    | Some _ => (Raise (PyExc "ParserError" file_path), w)
    | None => (Raise (PyExc "FileNotFoundError" file_path), w)
    end.

Definition write_file (file_path : string) (f : file) : M unit :=
  fun w =>
    if writable file_path
    then (Return tt, {| fs := <[file_path := f]> (fs w); rng := rng w; trace := trace w |})
    else (Raise (PyExc "OSError" file_path), w).

(** Modelled from the spec: [save_numpy_array_data] of
    [sensor.utils.main_utils] is not among the sources; it persists the
    array at the given path, and a write that cannot be done is an error. *)
Definition save_numpy_array_data (file_path : string) (array : ndarray) : M unit :=
  invoke (Call_save_numpy_array_data file_path array) (write_file file_path (NpyFile array)).

(** Modelled from the spec: [save_object] of [sensor.utils.main_utils] is
    not among the sources; it persists the fitted preprocessor at the given
    path, and a write that cannot be done is an error. *)
Definition save_object (file_path : string) (obj : FittedPipeline) : M unit :=
  invoke (Call_save_object file_path obj) (write_file file_path (PklFile obj)).

(** [smt.fit_resample(X, y)], drawing from the generator. *)
Definition fit_resample (X : ndarray) (y : Series) : M (ndarray * Series) :=
  invoke (Call_fit_resample X y)
    (fun w =>
       let (r, g) := smt_fit_resample (rng w) X y in
       (r, {| fs := fs w; rng := g; trace := trace w |})).

(** [preprocessor.fit(X)], which hands back the pipeline itself, now fitted,
    and [preprocessor_object.transform(X)]. *)
Definition fit (preprocessor : Pipeline) (X : ndarray) : M FittedPipeline :=
  lib (Call_fit X) (Pipeline_fit preprocessor X).

Definition transform (preprocessor_object : FittedPipeline) (X : ndarray) : M ndarray :=
  lib (Call_transform preprocessor_object X) (Pipeline_transform preprocessor_object X).

(** [DataTransformation.__init__]. *)
Definition DataTransformation_init (dva : DataValidationArtifact)
    (cfg : DataTransformationConfig) : M DataTransformation :=
  try_except
    (ret {| data_validation_artifact := dva; data_transformation_config := cfg |})
    (fun e => raise (SensorException e)).

Definition read_data (file_path : string) : M DataFrame :=
  try_except
    (invoke (Call_read_csv file_path) (pd_read_csv file_path))
    (fun e => raise (SensorException e)).

Definition get_data_transformer_object : M Pipeline :=
  try_except
    (let robust_scaler := RobustScaler in
     let simple_imputer := SimpleImputer (Int 0) in
     let preprocessor := [("Imputer", simple_imputer); ("RobustScaler", robust_scaler)] in
     ret preprocessor)
    (fun e => raise (SensorException e)).

(** The body of the [try] of [initiate_data_transformation]. *)
Definition transformation_body (self : DataTransformation) : M DataTransformationArtifact :=
  logging_info "Data transformation Started " ;;;
  train_df <- read_data (valid_train_file_path (data_validation_artifact self)) ;;
  test_df <- read_data (valid_test_file_path (data_validation_artifact self)) ;;
  preprocessor <- get_data_transformer_object ;;
  input_feature_train_df <- lib (Call_drop train_df TARGET_COLUMN) (drop train_df TARGET_COLUMN) ;;
  logging_info ("For Train the Target column " +:+ TARGET_COLUMN +:+ " is removed") ;;;
  target_feature_train_df <- lib (Call_getitem train_df TARGET_COLUMN) (getitem train_df TARGET_COLUMN) ;;
  let target_feature_train_df := replace target_feature_train_df TargetValueMapping_to_dict in
  logging_info "The target columnsof Train Dataset is converted to numeric succesfully" ;;;
  input_feature_test_df <- lib (Call_drop test_df TARGET_COLUMN) (drop test_df TARGET_COLUMN) ;;
  logging_info ("For Test the Target column " +:+ TARGET_COLUMN +:+ " is removed") ;;;
  target_feature_test_df <- lib (Call_getitem test_df TARGET_COLUMN) (getitem test_df TARGET_COLUMN) ;;
  let target_feature_test_df := replace target_feature_test_df TargetValueMapping_to_dict in
  logging_info "The target columns of Test Dataset is converted to numeric succesfully" ;;;
  preprocessor_object <- fit preprocessor (values input_feature_train_df) ;;
  transformed_input_train_feature <-
    transform preprocessor_object (values input_feature_train_df) ;;
  transformed_input_test_feature <-
    transform preprocessor_object (values input_feature_test_df) ;;
  logging_info "Succesfully Completed Preprocessing Steps" ;;;
  logging_info "Balancing the Dataset Using SMOTETomek method has started" ;;;
  train_final <- fit_resample transformed_input_train_feature target_feature_train_df ;;
  test_final <- fit_resample transformed_input_test_feature target_feature_test_df ;;
  logging_info "Balancing the Dataset Using SMOTETomek method has Completed" ;;;
  train_arr <- lib (Call_c_ train_final.1 train_final.2) (c_ train_final.1 train_final.2) ;;
  test_arr <- lib (Call_c_ test_final.1 test_final.2) (c_ test_final.1 test_final.2) ;;
  logging_info " Starting the conversion of data to numpy array" ;;;
  save_numpy_array_data
    (cfg_transformed_train_file_path (data_transformation_config self)) train_arr ;;;
  save_numpy_array_data
    (cfg_transformed_test_file_path (data_transformation_config self)) test_arr ;;;
  save_object
    (cfg_transformed_object_file_path (data_transformation_config self)) preprocessor_object ;;;
  logging_info " Completed the conversion of data to numpy array" ;;;
  let data_transformation_artifact :=
    {| transformed_object_file_path :=
         cfg_transformed_object_file_path (data_transformation_config self);
       transformed_train_file_path :=
         cfg_transformed_train_file_path (data_transformation_config self);
       transformed_test_file_path :=
         cfg_transformed_test_file_path (data_transformation_config self) |} in
  logging_info_artifact data_transformation_artifact ;;;
  logging_info "Data transformation Succesfully Completed " ;;;
  ret data_transformation_artifact.

Definition initiate_data_transformation (self : DataTransformation)
    : M DataTransformationArtifact :=
  try_except (transformation_body self) (fun e => raise (SensorException e)).

End Run.

(** ** What a run leaves in the trace *)

Section Observations.
Context `{Env : Environment}.

Definition is_failure (ev : event) : bool :=
  match ev with
  | Raised _ _ => true
  | _ => false
  end.

(** Some call in these events raised; none did. *)
Definition any_failure (evs : list event) : bool := existsb is_failure evs.

Definition failure_free (evs : list event) : Prop := any_failure evs = false.

(** The files as the completed writes among the events leave them (the
    events are most recent first, so the oldest write is applied first). *)
Definition replay (evs : list event) (files : gmap string file) : gmap string file :=
  foldr (fun ev acc =>
           match ev with
           | Returned (Call_save_numpy_array_data p a) => <[p := NpyFile a]> acc
           | Returned (Call_save_object p obj) => <[p := PklFile obj]> acc
           | _ => acc
           end) files evs.

Definition call_of (ev : event) : option call :=
  match ev with
  | Returned c | Raised c _ => Some c
  | _ => None
  end.

(** The tables [fit] was called on; the fitted objects that [transform] and
    [save_object] were handed; the label vectors [fit_resample] was handed. *)
Definition fit_inputs (evs : list event) : list ndarray :=
  omap (fun ev => match call_of ev with Some (Call_fit X) => Some X | _ => None end) evs.

Definition states_used (evs : list event) : list FittedPipeline :=
  omap (fun ev => match call_of ev with
                  | Some (Call_transform obj _) | Some (Call_save_object _ obj) => Some obj
                  | _ => None
                  end) evs.

Definition resample_labels (evs : list event) : list Series :=
  omap (fun ev => match call_of ev with
                  | Some (Call_fit_resample _ y) => Some y
                  | _ => None
                  end) evs.

(** The calls made on the preprocessor: [fit], [transform], [save_object]. *)
Definition preprocessor_calls (evs : list event) : list call :=
  omap (fun ev => match call_of ev with
                  | Some (Call_fit X) => Some (Call_fit X)
                  | Some (Call_transform obj X) => Some (Call_transform obj X)
                  | Some (Call_save_object p obj) => Some (Call_save_object p obj)
                  | _ => None
                  end) evs.

(** The array stored at a path holds text somewhere. *)
Definition is_text (c : cell) : bool :=
  match c with
  | Str _ => true
  | _ => false
  end.

Definition stored_text (files : gmap string file) (file_path : string) : bool :=
  match files !! file_path with
  | Some (NpyFile array) => existsb (existsb is_text) array
  | _ => false
  end.

(** The feature columns of a table: all but the label column. *)
Definition features (df : DataFrame) : DataFrame :=
  filter (fun c => c.1 ≠ TARGET_COLUMN) df.

(** The classes of the exceptions in [e], the surfaced one first, then what
    it was built from. *)
Fixpoint exn_classes (e : exn) : list string :=
  match e with
  | PyExc cls _ => [cls]
  | SensorException c => "SensorException" :: exn_classes c
  end.

(** The outcome is a [SchemaError], surfaced or carried as the cause. *)
Definition raises_SchemaError {A} (o : result A) : Prop :=
  match o with
  | Return _ => False
  | Raise e => "SchemaError" ∈ exn_classes e
  end.

Definition no_missing (X : ndarray) : Prop :=
  Forall (Forall (fun c => isna c = false)) X.

(** [wp m Q w]: running [m] from [w] ends in an outcome and a state that
    satisfy [Q]. *)
Definition wp {S A} (m : SE S A) (Q : result A -> S -> Prop) (w : S) : Prop :=
  Q (m w).1 (m w).2.

End Observations.

(** ** Further observations on a run *)

Section MoreObservations.
Context `{Env : Environment}.

(** An array whose columns all have the length of its last column. *)
Definition rectangular (A : ndarray) : Prop :=
  exists y, last A = Some y /\ Forall (fun col : Series => length col = length y) A.

(** The log lines among the events, oldest first. *)
Definition is_log (ev : event) : bool :=
  match ev with
  | Info _ | InfoArtifact _ => true
  | _ => false
  end.

Definition log_of (evs : list event) : list event :=
  rev (List.filter is_log evs).

(** The log of a run that goes through, oldest line first. *)
Definition full_log (self : DataTransformation) : list event :=
  [ Info "Data transformation Started ";
    Info ("For Train the Target column " +:+ TARGET_COLUMN +:+ " is removed");
    Info "The target columnsof Train Dataset is converted to numeric succesfully";
    Info ("For Test the Target column " +:+ TARGET_COLUMN +:+ " is removed");
    Info "The target columns of Test Dataset is converted to numeric succesfully";
    Info "Succesfully Completed Preprocessing Steps";
    Info "Balancing the Dataset Using SMOTETomek method has started";
    Info "Balancing the Dataset Using SMOTETomek method has Completed";
    Info " Starting the conversion of data to numpy array";
    Info " Completed the conversion of data to numpy array";
    InfoArtifact
      {| transformed_object_file_path :=
           cfg_transformed_object_file_path (data_transformation_config self);
         transformed_train_file_path :=
           cfg_transformed_train_file_path (data_transformation_config self);
         transformed_test_file_path :=
           cfg_transformed_test_file_path (data_transformation_config self) |};
    Info "Data transformation Succesfully Completed " ].

End MoreObservations.

(** ** The database client *)

Module MongoDB.

(** A [pymongo.MongoClient] object: [client_id] is its identity, the number
    of constructor calls made in the process before the one that built it. *)
Record MongoClient : Type := {
  client_id : nat;
  host : string;
  tlsCAFile : string
}.

(** [client[name]], a database handle. *)
Record Database : Type := {
  db_client : MongoClient;
  db_name : string
}.

(** An instance of [MongoDBClient] with its three attributes. *)
Record MongoDBClient : Type := {
  client : MongoClient;
  database : Database;
  database_name : string
}.

(** What the module takes from outside: the constant [DATABASE_NAME], the
    certificate bundle [ca], the connection string (a literal of the source,
    on which nothing below depends), and the driver: which constructor call,
    counted from the start of the process, raises, and which database names
    the driver refuses. *)
Class Driver : Type := {
  DATABASE_NAME : string;
  ca : string;
  mongo_db_url : string;
  MongoClient_error : nat -> option exn;
  getitem_error : string -> option exn
}.

(** The process: the class attribute [MongoDBClient.client] ([None] until it
    is assigned) and every call of [pymongo.MongoClient] made so far with
    its outcome, most recent first. *)
Record Process : Type := {
  MongoDBClient_client : option MongoClient;
  driver_calls : list (result MongoClient)
}.

(** The class body has run: [client = None]. *)
Definition process_start : Process :=
  {| MongoDBClient_client := None; driver_calls := [] |}.

Section Client.
Context `{Drv : Driver}.
Local Open Scope stage_scope.

Definition pymongo_MongoClient (url tls : string) : SE Process MongoClient :=
  fun p =>
    let r := match MongoClient_error (length (driver_calls p)) with
             | Some e => Raise e
             | None => Return {| client_id := length (driver_calls p);
                                 host := url; tlsCAFile := tls |}
             end in
    (r, {| MongoDBClient_client := MongoDBClient_client p;
           driver_calls := r :: driver_calls p |}).

Definition set_MongoDBClient_client (c : MongoClient) : SE Process unit :=
  fun p => (Return tt, {| MongoDBClient_client := Some c; driver_calls := driver_calls p |}).

Definition get_MongoDBClient_client : SE Process (option MongoClient) :=
  fun p => (Return (MongoDBClient_client p), p).

(** [client[database_name]]; on [None] the subscript is a [TypeError]. *)
Definition client_getitem (c : option MongoClient) (name : string) : result Database :=
  match c with
  | None => Raise (PyExc "TypeError" "'NoneType' object is not subscriptable")
  | Some c =>
      match getitem_error name with
      | Some e => Raise e
      | None => Return {| db_client := c; db_name := name |}
      end
  end.

(** [MongoDBClient.__init__(self, database_name=DATABASE_NAME)]; the
    argument is [None] when the caller leaves it out. *)
Definition init (arg : option string) : SE Process MongoDBClient :=
  let database_name := default DATABASE_NAME arg in
  try_except
    (cls_client <- get_MongoDBClient_client ;;
     (match cls_client with
      | None =>
          c <- pymongo_MongoClient mongo_db_url ca ;;
          set_MongoDBClient_client c
      | Some _ => ret tt
      end) ;;;
     self_client <- get_MongoDBClient_client ;;
     self_database <- pure (client_getitem self_client database_name) ;;
     match self_client with
     | Some c => ret {| client := c; database := self_database;
                        database_name := database_name |}
     | None => raise (PyExc "TypeError" "'NoneType' object is not subscriptable")
     end)
    (fun e => raise e).

(** Constructions made one after the other, each with its outcome. *)
Fixpoint constructions (args : list (option string)) (p : Process)
    : list (result MongoDBClient) * Process :=
  match args with
  | [] => ([], p)
  | a :: rest =>
      let (r, p') := init a p in
      let (rs, p'') := constructions rest p' in
      (r :: rs, p'')
  end.

(** The client objects the driver has handed out so far. *)
Definition created (p : Process) : list MongoClient :=
  omap (fun r => match r with Return c => Some c | Raise _ => None end) (driver_calls p).

End Client.

(** The class attribute and the clients handed out agree: nothing yet, or
    one client, held by the class. *)
Definition settled (p : Process) : Prop :=
  (MongoDBClient_client p = None /\ created p = []) \/
  (exists c, MongoDBClient_client p = Some c /\ created p = [c]).

End MongoDB.

(** ** An executable environment *)

(** The theorems below hold for every [Environment].  To run the stage on
    concrete tables, this section builds one: a scaler that centres each
    column on its median and divides by its interquartile range, and a
    resampler that repeats a row of the rarest class until that class is as
    large as the largest one. *)
Module Example.

Definition float_of_nat (n : nat) : float :=
  PrimFloat.of_uint63 (Uint63.of_Z (Z.of_nat n)).

Definition float_of_Z (z : Z) : float :=
  if (z <? 0)%Z
  then PrimFloat.opp (PrimFloat.of_uint63 (Uint63.of_Z (- z)))
  else PrimFloat.of_uint63 (Uint63.of_Z z).

(** The numeric reading of a column; text is refused. *)
Fixpoint as_floats (col : Series) : result (list float) :=
  match col with
  | [] => Return []
  | Float f :: rest => (fs <- as_floats rest ;; Return (f :: fs))%result
  | Int z :: rest => (fs <- as_floats rest ;; Return (float_of_Z z :: fs))%result
  | Str s :: _ => Raise (PyExc "ValueError" ("could not convert string to float: " +:+ s))
  end.

Fixpoint insert_sorted (x : float) (l : list float) : list float :=
  match l with
  | [] => [x]
  | y :: rest => if PrimFloat.leb x y then x :: l else y :: insert_sorted x rest
  end.

Definition sort_floats (l : list float) : list float :=
  foldr insert_sorted [] l.

(** The [q]-th percentile of a sorted list, interpolating linearly between
    the two nearest ranks. *)
Definition percentile (q : nat) (sorted : list float) : float :=
  match sorted with
  | [] => PrimFloat.nan
  | _ :: _ =>
      let pos := q * (length sorted - 1) in
      let lo := nth (pos / 100) sorted PrimFloat.nan in
      let hi := nth (pos / 100 + 1) sorted lo in
      (lo + (hi - lo) * (float_of_nat (pos mod 100) / 100))%float
  end.

(** Centre and scale of one column, missing entries left out; a zero range
    scales by one. *)
Definition column_stats (col : list float) : float * float :=
  let present := sort_floats (List.filter (fun x => negb (PrimFloat.is_nan x)) col) in
  let iqr := (percentile 75 present - percentile 25 present)%float in
  (percentile 50 present, if PrimFloat.eqb iqr 0 then 1%float else iqr).

Definition median_iqr_fit (X : ndarray) : result (list (float * float)) :=
  (cols <- foldr (fun col acc => fs <- as_floats col ;; r <- acc ;; Return (fs :: r))
                 (Return []) X ;;
   Return (column_stats <$> cols))%result.

Fixpoint median_iqr_transform (st : list (float * float)) (X : ndarray) : result ndarray :=
  match st, X with
  | [], [] => Return []
  | (center, scale) :: st', col :: X' =>
      (fs <- as_floats col ;;
       rest <- median_iqr_transform st' X' ;;
       Return (((fun x => Float ((x - center) / scale)%float) <$> fs) :: rest))%result
  | _, _ => Raise (PyExc "ValueError" "X has a different number of features than the scaler was fitted with")
  end.

Definition cell_eqb (a b : cell) : bool :=
  match a, b with
  | Float x, Float y => PrimFloat.eqb x y
  | Int x, Int y => (x =? y)%Z
  | Str x, Str y => String.eqb x y
  | _, _ => false
  end.

Definition count_label (c : cell) (y : Series) : nat :=
  length (List.filter (cell_eqb c) y).

Fixpoint classes (y : Series) : Series :=
  match y with
  | [] => []
  | c :: rest => c :: List.filter (fun d => negb (cell_eqb c d)) (classes rest)
  end.

(** The rarest class, the first one on a tie. *)
Definition rarest (y : Series) (cs : Series) : option cell :=
  foldr (fun c best =>
           match best with
           | Some b => if Nat.leb (count_label c y) (count_label b y) then Some c else Some b
           | None => Some c
           end) None cs.

Definition largest_count (y : Series) (cs : Series) : nat :=
  foldr (fun c m => Nat.max (count_label c y) m) 0 cs.

Fixpoint index_of (c : cell) (y : Series) : nat :=
  match y with
  | [] => 0
  | d :: rest => if cell_eqb c d then 0 else S (index_of c rest)
  end.

(** Repeat the first row of the rarest class until the class is as large as
    the largest; one draw of the generator per added row. *)
Definition repeat_rarest (g : N) (X : ndarray) (y : Series)
    : result (ndarray * Series) * N :=
  match classes y with
  | [] | [_] =>
      (Raise (PyExc "ValueError" "The target 'y' needs to have more than 1 class."), g)
  | cs =>
      match rarest y cs with
      | None => (Return (X, y), g)
      | Some c =>
          let extra := largest_count y cs - count_label c y in
          let i := index_of c y in
          (Return ((fun col : Series => col ++ replicate extra (nth i col (Float PrimFloat.nan))) <$> X,
                   y ++ replicate extra c),
           (g + N.of_nat extra)%N)
      end
  end.

#[local] Instance env : Environment := {|
  TARGET_COLUMN := "class";
  TargetValueMapping_to_dict := {[ "pos" := 1%Z; "neg" := 0%Z ]};
  scaler_state := list (float * float);
  scaler_fit := median_iqr_fit;
  scaler_transform := median_iqr_transform;
  smt_fit_resample := repeat_rarest;
  writable := fun _ => true
|}.

Definition self : DataTransformation :=
  {| data_validation_artifact :=
       {| valid_train_file_path := "artifact/validated/train.csv";
          valid_test_file_path := "artifact/validated/test.csv" |};
     data_transformation_config :=
       {| cfg_transformed_object_file_path := "artifact/transformed/preprocessing.pkl";
          cfg_transformed_train_file_path := "artifact/transformed/train.npy";
          cfg_transformed_test_file_path := "artifact/transformed/test.npy" |} |}.

Definition train_table : DataFrame :=
  [("sensor1", [Float 1; Float 2; Float PrimFloat.nan; Float 4; Float 5]);
   ("sensor2", [Float 10; Float 30; Float 20; Float 50; Float 40]);
   ("class", [Str "neg"; Str "neg"; Str "pos"; Str "neg"; Str "pos"])].

Definition test_table : DataFrame :=
  [("sensor1", [Float 3; Float 6; Float 2]);
   ("sensor2", [Float 20; Float PrimFloat.nan; Float 40]);
   ("class", [Str "pos"; Str "neg"; Str "neg"])].

(** Tables whose labels are two tokens outside the dictionary. *)
Definition yes_no_train : DataFrame :=
  [("sensor1", Float <$> [1; 2; 3; 4; 5; 6; 7; 8; 9; 10; 11; 12; 13; 14]%float);
   ("sensor2", Float <$> [20; 10; 40; 30; 60; 50; 80; 70; 100; 90; 120; 110; 140; 130]%float);
   ("class", Str <$> ["no"; "no"; "yes"; "no"; "yes"; "no"; "yes"; "no"; "yes"; "no";
                      "yes"; "no"; "yes"; "no"])].

Definition yes_no_test : DataFrame :=
  [("sensor1", Float <$> [2; 4; 6; 8; 10; 12; 14; 1; 3; 5; 7; 9; 11]%float);
   ("sensor2", Float <$> [15; 25; 35; 45; 55; 65; 75; 85; 95; 105; 115; 125; 135]%float);
   ("class", Str <$> ["yes"; "no"; "yes"; "no"; "yes"; "no"; "yes"; "no"; "yes"; "no";
                      "yes"; "no"; "no"])].

Definition disk `{Env : Environment} (train test : DataFrame) : World :=
  {| fs := {[ "artifact/validated/train.csv" := CsvFile train;
              "artifact/validated/test.csv" := CsvFile test ]};
     rng := 0%N;
     trace := [] |}.

(** The same environment, except that the test array cannot be written. *)
Definition env_test_unwritable : Environment := {|
  TARGET_COLUMN := "class";
  TargetValueMapping_to_dict := {[ "pos" := 1%Z; "neg" := 0%Z ]};
  scaler_state := list (float * float);
  scaler_fit := median_iqr_fit;
  scaler_transform := median_iqr_transform;
  smt_fit_resample := repeat_rarest;
  writable := fun file_path => negb (String.eqb file_path "artifact/transformed/test.npy")
|}.

(** A disk on which the test table is missing. *)
Definition disk_without_test `{Env : Environment} (train : DataFrame) : World :=
  {| fs := {[ "artifact/validated/train.csv" := CsvFile train ]};
     rng := 0%N;
     trace := [] |}.

(** A driver that connects at once and refuses the empty database name. *)
Definition driver : MongoDB.Driver := {|
  MongoDB.DATABASE_NAME := "sensor";
  MongoDB.ca := "cacert.pem";
  MongoDB.mongo_db_url := "mongodb+srv://cluster.example.net/";
  MongoDB.MongoClient_error := fun _ => None;
  MongoDB.getitem_error := fun name =>
    if String.eqb name ""
    then Some (PyExc "InvalidName" "database name cannot be the empty string")
    else None
|}.

End Example.

(** Further example inputs. *)
Module MoreExample.

(** A disk with no file on it. *)
Definition empty_disk `{Env : Environment} : World :=
  {| fs := ∅; rng := 0%N; trace := [] |}.

(** A driver that cannot reach the server. *)
Definition driver_down : MongoDB.Driver := {|
  MongoDB.DATABASE_NAME := "sensor";
  MongoDB.ca := "cacert.pem";
  MongoDB.mongo_db_url := "mongodb+srv://cluster.example.net/";
  MongoDB.MongoClient_error := fun _ =>
    Some (PyExc "ConfigurationError" "the DNS query name does not exist");
  MongoDB.getitem_error := fun _ => None
|}.

End MoreExample.

(** * Properties *)

(** ** Rules for running a computation step by step *)

Section Rules.
Context {S : Type}.

Lemma wp_elim {A} (m : SE S A) (Q : result A -> S -> Prop) w o w' :
  wp m Q w -> m w = (o, w') -> Q o w'.
Proof. unfold wp. intros HQ Hrun. now rewrite Hrun in HQ. Qed.

Lemma wp_ret {A} (a : A) (Q : result A -> S -> Prop) w :
  Q (Return a) w -> wp (ret a) Q w.
Proof. exact id. Qed.

Lemma wp_raise {A} (e : exn) (Q : result A -> S -> Prop) w :
  Q (Raise e) w -> wp (raise e) Q w.
Proof. exact id. Qed.

Lemma wp_pure {A} (r : result A) (Q : result A -> S -> Prop) w :
  Q r w -> wp (pure r) Q w.
Proof. exact id. Qed.

Lemma wp_bind {A B} (m : SE S A) (k : A -> SE S B) (Q : result B -> S -> Prop) w :
  wp m (fun o w1 => match o with
                    | Return a => wp (k a) Q w1
                    | Raise e => Q (Raise e) w1
                    end) w ->
  wp (bind m k) Q w.
Proof. unfold wp, bind. now destruct (m w) as [[a|e] w1]. Qed.

Lemma wp_try_except {A} (body : SE S A) (handler : exn -> SE S A)
    (Q : result A -> S -> Prop) w :
  wp body (fun o w1 => match o with
                       | Return a => Q (Return a) w1
                       | Raise e => wp (handler e) Q w1
                       end) w ->
  wp (try_except body handler) Q w.
Proof. unfold wp, try_except. now destruct (body w) as [[a|e] w1]. Qed.

End Rules.

Section StageRules.
Context `{Env : Environment}.

Lemma wp_logging_info msg (Q : result unit -> World -> Prop) w :
  Q (Return tt) (emit (Info msg) w) -> wp (logging_info msg) Q w.
Proof. exact id. Qed.

Lemma wp_logging_info_artifact a (Q : result unit -> World -> Prop) w :
  Q (Return tt) (emit (InfoArtifact a) w) -> wp (logging_info_artifact a) Q w.
Proof. exact id. Qed.

Lemma wp_invoke {A} c (f : M A) (Q : result A -> World -> Prop) w :
  wp f (fun o w1 => match o with
                    | Return a => Q (Return a) (emit (Returned c) w1)
                    | Raise e => Q (Raise e) (emit (Raised c e) w1)
                    end) w ->
  wp (invoke c f) Q w.
Proof. unfold wp, invoke. now destruct (f w) as [[a|e] w1]. Qed.

Lemma wp_lib {A} c (r : result A) (Q : result A -> World -> Prop) w :
  match r with
  | Return a => Q (Return a) (emit (Returned c) w)
  | Raise e => Q (Raise e) (emit (Raised c e) w)
  end ->
  wp (lib c r) Q w.
Proof. intros H. apply wp_invoke, wp_pure. exact H. Qed.

Lemma wp_pd_read_csv file_path (Q : result DataFrame -> World -> Prop) w :
  match fs w !! file_path with
  | Some (CsvFile df) => Q (Return df) w
  | Some _ => Q (Raise (PyExc "ParserError" file_path)) w
  | None => Q (Raise (PyExc "FileNotFoundError" file_path)) w
  end ->
  wp (pd_read_csv file_path) Q w.
Proof. unfold wp, pd_read_csv. now destruct (fs w !! file_path) as [[| |]|]. Qed.

Lemma wp_write_file file_path f (Q : result unit -> World -> Prop) w :
  (if writable file_path
   then Q (Return tt) {| fs := <[file_path := f]> (fs w); rng := rng w; trace := trace w |}
   else Q (Raise (PyExc "OSError" file_path)) w) ->
  wp (write_file file_path f) Q w.
Proof. unfold wp, write_file. now destruct (writable file_path). Qed.

Lemma wp_fit_resample X y (Q : result (ndarray * Series) -> World -> Prop) w :
  (let (r, g) := smt_fit_resample (rng w) X y in
   let w1 := emit match r with
                  | Return _ => Returned (Call_fit_resample X y)
                  | Raise e => Raised (Call_fit_resample X y) e
                  end {| fs := fs w; rng := g; trace := trace w |} in
   Q r w1) ->
  wp (fit_resample X y) Q w.
Proof.
  unfold wp, fit_resample, invoke.
  now destruct (smt_fit_resample (rng w) X y) as [[a|e] g].
Qed.

End StageRules.

(** One step of the run; [run_stage] takes them all, splitting at every
    call on whether it returned or raised. *)
Ltac stage_step :=
  lazymatch goal with
  | |- wp (bind _ _) _ _ => apply wp_bind
  | |- wp (try_except _ _) _ _ => apply wp_try_except
  | |- wp (logging_info _) _ _ => apply wp_logging_info
  | |- wp (logging_info_artifact _) _ _ => apply wp_logging_info_artifact
  | |- wp (ret _) _ _ => apply wp_ret
  | |- wp (raise _) _ _ => apply wp_raise
  | |- wp (pd_read_csv _) _ _ => apply wp_pd_read_csv
  | |- wp (write_file _ _) _ _ => apply wp_write_file
  | |- wp (fit_resample _ _) _ _ => apply wp_fit_resample
  | |- wp (lib _ _) _ _ => apply wp_lib
  | |- wp (invoke _ _) _ _ => apply wp_invoke
  end;
  cbv beta iota.

Ltac stage_split :=
  match goal with
  | H : fs ?w !! ?p = Some _ |- context [match fs ?w !! ?p with _ => _ end] =>
      rewrite H
  | |- context [match fs ?w !! ?p with _ => _ end] =>
      let Hf := fresh "Hfile" in destruct (fs w !! p) as [[?df|?arr|?obj]|] eqn:Hf
  | |- context [if writable ?p then _ else _] =>
      let Hw := fresh "Hwritable" in destruct (writable p) eqn:Hw
  | |- context [smt_fit_resample ?g ?X ?y] =>
      let Hr := fresh "Hresample" in
      destruct (smt_fit_resample g X y) as [[[?Xr ?yr]|?e] ?g'] eqn:Hr
  | |- match ?r with Return _ => _ | Raise _ => _ end =>
      let Hc := fresh "Hcall" in destruct r as [?v|?e] eqn:Hc
  end.

Ltac run_stage :=
  unfold initiate_data_transformation, transformation_body, read_data,
    get_data_transformer_object, save_numpy_array_data, save_object, fit, transform;
  repeat (first [ stage_step | stage_split ];
          cbv beta iota; cbn [fs rng trace emit fst snd]).

(** The events of an explicit trace that were added on top of [t]. *)
Ltac prefix_of l t :=
  lazymatch l with
  | t => open_constr:(@nil _)
  | ?x :: ?l' => let p := prefix_of l' t in constr:(x :: p)
  end.

Ltac wraps_cause := repeat first [ apply wraps_once | apply wraps_more ].

Section StageFacts.
Context `{Env : Environment}.

Lemma wp_outcome {A} (m : M A) (Q : result A -> World -> Prop) w :
  wp m Q w -> let (o, w') := m w in Q o w'.
Proof. unfold wp. now destruct (m w). Qed.

(** C4: whatever fails in the run, the caller sees one kind of exception,
    [SensorException], built from the exception of the call that raised;
    that call is the last thing the run did, and no other call of the run
    raised (nothing is retried, nothing is recovered). *)
Theorem failure_surfaces_as_SensorException (self : DataTransformation) (w : World) :
  let (o, w') := initiate_data_transformation self w in
  match o with
  | Return _ => exists evs, trace w' = evs ++ trace w /\ failure_free evs
  | Raise e =>
      exists c cause evs,
        trace w' = Raised c cause :: evs ++ trace w /\
        failure_free evs /\
        wraps e cause
  end.
Proof.
  apply wp_outcome.
  run_stage.
  all: lazymatch goal with
       | |- exists c cause evs, Raised ?c0 ?e0 :: ?l = _ /\ _ =>
           let p := prefix_of l (trace w) in
           exists c0, e0, p; split; [reflexivity | split; [reflexivity | wraps_cause]]
       | |- exists evs, ?l = _ /\ _ =>
           let p := prefix_of l (trace w) in
           exists p; split; reflexivity
       end.
Qed.


(** C7: if a call of the run raises, no artifact record is returned; the
    call that raised is the last thing the run did, and the files are as the
    writes completed before it left them: nothing is undone, cleaned up or
    recovered.  A run that returns had no failing call. *)
Theorem failed_run_returns_no_artifact (self : DataTransformation) (w : World) :
  let (o, w') := initiate_data_transformation self w in
  exists evs,
    trace w' = evs ++ trace w /\
    fs w' = replay evs (fs w) /\
    (any_failure evs = true ->
       (forall a, o <> Return a) /\
       exists c e rest, evs = Raised c e :: rest /\ failure_free rest) /\
    (forall a, o = Return a -> failure_free evs).
Proof.
  apply wp_outcome.
  run_stage.
  all: lazymatch goal with
       | |- exists evs, ?l = _ /\ _ =>
           let p := prefix_of l (trace w) in
           exists p; split; [reflexivity | split; [reflexivity | split ] ]
       end.
  all: try (intros a Ha; first [ discriminate Ha | reflexivity ]).
  all: intros Hfail; first [ discriminate Hfail | split; [ discriminate | ] ].
  all: do 3 eexists; split; reflexivity.
Qed.

(** C8: a run that completes returns the artifact record whose three paths
    are the three output paths of the configuration. *)
Theorem artifact_holds_config_paths (self : DataTransformation) (w w' : World)
    (a : DataTransformationArtifact) :
  initiate_data_transformation self w = (Return a, w') ->
  a = {| transformed_object_file_path :=
           cfg_transformed_object_file_path (data_transformation_config self);
         transformed_train_file_path :=
           cfg_transformed_train_file_path (data_transformation_config self);
         transformed_test_file_path :=
           cfg_transformed_test_file_path (data_transformation_config self) |}.
Proof.
  intros Hrun.
  refine (wp_elim _ (fun o _ => match o with Return a0 => a0 = _ | Raise _ => True end)
            w (Return a) w' _ Hrun).
  run_stage.
  all: first [ reflexivity | exact I ].
Qed.

End StageFacts.

Section FittedState.
Context `{Env : Environment}.

Lemma drop_Return (df v : DataFrame) (col : string) :
  drop df col = Return v -> v = filter (fun c => c.1 ≠ col) df.
Proof. unfold drop. case_decide; congruence. Qed.

(** C2: the fitted preprocessor is the two-step pipeline fitted on the
    feature columns of the train table and on nothing else: [fit] is called
    at most once, on those columns; every fitted object handed to
    [transform] or to [save_object] is the outcome of that fit; a run that
    completes used that one object for the train features, for the test
    features and for the file it saved. *)
Theorem fitted_state_from_train_features_only (self : DataTransformation) (w : World)
    (train_df : DataFrame) :
  fs w !! valid_train_file_path (data_validation_artifact self) = Some (CsvFile train_df) ->
  let (o, w') := initiate_data_transformation self w in
  exists evs,
    trace w' = evs ++ trace w /\
    (fit_inputs evs = [] \/ fit_inputs evs = [values (features train_df)]) /\
    Forall (fun obj =>
              Pipeline_fit [("Imputer", SimpleImputer (Int 0)); ("RobustScaler", RobustScaler)]
                (values (features train_df)) = Return obj)
           (states_used evs) /\
    (forall a, o = Return a ->
       exists obj test_df,
         fs w !! valid_test_file_path (data_validation_artifact self)
           = Some (CsvFile test_df) /\
         preprocessor_calls evs =
           [Call_save_object
              (cfg_transformed_object_file_path (data_transformation_config self)) obj;
            Call_transform obj (values (features test_df));
            Call_transform obj (values (features train_df));
            Call_fit (values (features train_df))] /\
         fs w' !! cfg_transformed_object_file_path (data_transformation_config self)
           = Some (PklFile obj)).
Proof.
  intros Htrain.
  apply wp_outcome.
  run_stage.
  all: repeat match goal with
         | H : drop _ _ = Return _ |- _ => apply drop_Return in H; subst
         end.
  all: fold (features train_df) in *.
  all: lazymatch goal with
       | |- exists evs, ?l = _ /\ _ =>
           let p := prefix_of l (trace w) in
           exists p; split; [reflexivity | ]
       end.
  all: cbn [fit_inputs states_used preprocessor_calls omap call_of list_omap].
  all: split; [ first [ now left | now right ] | split ].
  all: try (repeat constructor; assumption).
  all: intros a Ha; first [ discriminate Ha | idtac ].
  all: eexists _, _; split; [ reflexivity | split; [ reflexivity | apply lookup_insert_eq ] ].
Qed.
End FittedState.

Section LabelMapping.
Context `{Env : Environment}.

Lemma replace_keeps_unmapped (d : gmap string Z) (labels : Series) (t : string) :
  Str t ∈ labels -> d !! t = None -> Str t ∈ replace labels d.
Proof.
  intros Hin Hd. unfold replace.
  apply list_elem_of_fmap. exists (Str t). split; [| exact Hin].
  cbn. now rewrite Hd.
Qed.

(** C1, as amended: a text label outside the dictionary raises nothing in
    the label mapping and is left as it is; whenever the run reaches the
    balancing step, the train labels it hands over are the mapped column
    with that text still in it; and when the run fails, what it raises is a
    [SensorException] built from the exception of a library call, the last
    event of the run, not a schema error of the stage's own. *)
Theorem unmapped_label_reaches_resampler (self : DataTransformation) (w : World)
    (train_df : DataFrame) (labels : Series) (t : string) :
  fs w !! valid_train_file_path (data_validation_artifact self) = Some (CsvFile train_df) ->
  getitem train_df TARGET_COLUMN = Return labels ->
  Str t ∈ labels ->
  TargetValueMapping_to_dict !! t = None ->
  Str t ∈ replace labels TargetValueMapping_to_dict /\
  let (o, w') := initiate_data_transformation self w in
  exists evs,
    trace w' = evs ++ trace w /\
    match o with
    | Return _ =>
        exists y_test,
          resample_labels evs = [y_test; replace labels TargetValueMapping_to_dict]
    | Raise e =>
        (exists c cause rest, evs = Raised c cause :: rest /\ wraps e cause) /\
        (resample_labels evs = [] \/
         resample_labels evs = [replace labels TargetValueMapping_to_dict] \/
         exists y_test,
           resample_labels evs = [y_test; replace labels TargetValueMapping_to_dict])
    end.
Proof.
  intros Htrain Hlabels Hin Hd.
  split; [ now apply replace_keeps_unmapped | ].
  apply wp_outcome.
  run_stage.
  all: first [ discriminate Hlabels | injection Hlabels as -> | idtac ].
  all: lazymatch goal with
       | |- exists evs, ?l = _ /\ _ =>
           let p := prefix_of l (trace w) in
           exists p; split; [reflexivity | ]
       end.
  all: cbn [resample_labels omap call_of list_omap].
  all: try (eexists; reflexivity).
  all: split; [ do 3 eexists; split; [ reflexivity | wraps_cause ] | ].
  all: first [ now left | now (right; left) | right; right; eexists; reflexivity ].
Qed.

End LabelMapping.

(** C1, as stated, fails: on tables whose labels are the tokens [yes] and
    [no], both outside the dictionary, the run completes, raising nothing,
    and the saved train array holds the text. *)
Lemma unmapped_label_run_completes :
  let w := Example.disk Example.yes_no_train Example.yes_no_test in
  let r := initiate_data_transformation (Env := Example.env) Example.self w in
  (exists labels,
     getitem Example.yes_no_train (TARGET_COLUMN (Environment := Example.env)) = Return labels /\
     labels !! 2 = Some (Str "yes") /\
     TargetValueMapping_to_dict (Environment := Example.env) !! "yes" = None) /\
  ~ raises_SchemaError r.1 /\
  stored_text (fs r.2) "artifact/transformed/train.npy" = true.
Proof.
  split; [ | split ].
  - eexists. split; [ reflexivity | split; reflexivity ].
  - vm_compute. exact id.
  - vm_compute. reflexivity.
Qed.

Section PreprocessorFacts.
Context `{Env : Environment}.

Lemma impute_cell_present (fill_value c : cell) :
  isna c = false -> impute_cell fill_value c = c.
Proof. unfold impute_cell. now intros ->. Qed.

Lemma impute_no_missing (fill_value : cell) (X : ndarray) :
  no_missing X -> impute fill_value X = X.
Proof.
  unfold no_missing, impute.
  induction 1 as [| col X' Hcol _ IH]; [reflexivity |].
  cbn. f_equal; [| exact IH].
  induction Hcol as [| c col' Hc _ IHcol]; [reflexivity |].
  cbn. f_equal; [ now apply impute_cell_present | exact IHcol ].
Qed.

(** C5: on a table with no missing entry the imputation step changes
    nothing, so the pipeline built by [get_data_transformer_object] gives
    what the scaler alone gives: fitted and applied on the table itself, and
    applied to it after a fit on any other table. *)
Theorem imputation_is_identity_without_missing (X : ndarray) (w : World) :
  no_missing X ->
  match get_data_transformer_object w with
  | (Return preprocessor, _) =>
      impute (Int 0) X = X /\
      (p <- Pipeline_fit preprocessor X ;; Pipeline_transform p X)%result
        = (st <- scaler_fit X ;; scaler_transform st X)%result /\
      (forall X_train obj,
         Pipeline_fit preprocessor X_train = Return obj ->
         exists st,
           scaler_fit (impute (Int 0) X_train) = Return st /\
           Pipeline_transform obj X = scaler_transform st X)
  | (Raise _, _) => False
  end.
Proof.
  intros Hpresent.
  pose proof (impute_no_missing (Int 0) X Hpresent) as Himpute.
  cbn. split; [ exact Himpute | split ].
  - rewrite Himpute.
    destruct (scaler_fit X) as [st|e]; cbn; [| reflexivity].
    rewrite Himpute. now destruct (scaler_transform st X).
  - intros X_train obj Hfit.
    destruct (scaler_fit (impute (Int 0) X_train)) as [st|e]; cbn in Hfit; [| discriminate].
    injection Hfit as <-. exists st. split; [reflexivity |].
    cbn. rewrite Himpute. now destruct (scaler_transform st X).
Qed.

End PreprocessorFacts.

Module MongoDBFacts.
Import MongoDB.

Section ClientFacts.
Context `{Drv : Driver}.

(** What a construction does, case by case. *)
Lemma init_eq (arg : option string) (p : Process) :
  init arg p =
  let name := default DATABASE_NAME arg in
  let handle c :=
    match getitem_error name with
    | Some e => Raise e
    | None => Return {| client := c;
                        database := {| db_client := c; db_name := name |};
                        database_name := name |}
    end in
  match MongoDBClient_client p with
  | Some c => (handle c, p)
  | None =>
      match MongoClient_error (length (driver_calls p)) with
      | Some e =>
          (Raise e, {| MongoDBClient_client := None;
                       driver_calls := Raise e :: driver_calls p |})
      | None =>
          let c := {| client_id := length (driver_calls p);
                      host := mongo_db_url; tlsCAFile := ca |} in
          (handle c, {| MongoDBClient_client := Some c;
                        driver_calls := Return c :: driver_calls p |})
      end
  end.
Proof.
  destruct p as [[c|] calls]; unfold init, try_except, bind,
    get_MongoDBClient_client, pymongo_MongoClient, set_MongoDBClient_client,
    client_getitem, ret, pure, raise; cbn.
  - now destruct (getitem_error (default DATABASE_NAME arg)).
  - destruct (MongoClient_error (length calls)); cbn; [reflexivity |].
    now destruct (getitem_error (default DATABASE_NAME arg)).
Qed.

(** Once the class attribute holds a client, a construction leaves the
    process as it is and, when it returns, returns an instance on that
    client. *)
Lemma init_reuses (arg : option string) (p : Process) (c : MongoClient) :
  MongoDBClient_client p = Some c ->
  (init arg p).2 = p /\
  forall inst, (init arg p).1 = Return inst ->
    client inst = c /\
    database inst = {| db_client := c; db_name := default DATABASE_NAME arg |} /\
    database_name inst = default DATABASE_NAME arg.
Proof.
  intros Hc. rewrite init_eq, Hc. cbn.
  split; [reflexivity |].
  destruct (getitem_error (default DATABASE_NAME arg)); [discriminate |].
  now intros inst [= <-].
Qed.

(** From a process whose class attribute is still [None]: either the driver
    raises and nothing changes but the record of the call, or one client is
    created and stored. *)
Lemma init_first (arg : option string) (p : Process) :
  MongoDBClient_client p = None ->
  match init arg p with
  | (r, p') =>
      (MongoDBClient_client p' = None /\ created p' = created p /\
       exists e, r = Raise e) \/
      (exists c, MongoDBClient_client p' = Some c /\ created p' = c :: created p /\
                 forall inst, r = Return inst -> client inst = c)
  end.
Proof.
  intros Hc. rewrite init_eq, Hc. cbn.
  destruct (MongoClient_error (length (driver_calls p))) as [e|].
  - left. split; [reflexivity | split; [reflexivity | eauto]].
  - right. eexists. split; [reflexivity | split; [reflexivity |]].
    destruct (getitem_error (default DATABASE_NAME arg)); [discriminate |].
    now intros inst [= <-].
Qed.

Lemma init_settled (arg : option string) (p : Process) :
  settled p -> settled (init arg p).2.
Proof.
  intros [[Hn Hc] | [c [Hs Hc]]].
  - pose proof (init_first arg p Hn) as H.
    destruct (init arg p) as [r p1]. cbn.
    destruct H as [(Hn1 & Hc1 & _) | (c & Hs1 & Hc1 & _)].
    + left. split; [exact Hn1 | congruence].
    + right. exists c. split; [exact Hs1 | congruence].
  - destruct (init_reuses arg p c Hs) as [-> _]. right. eauto.
Qed.

Lemma constructions_settled (args : list (option string)) (p : Process) :
  settled p -> settled (constructions args p).2.
Proof.
  revert p. induction args as [| a rest IH]; intros p Hp; cbn; [exact Hp |].
  pose proof (init_settled a p Hp) as H1.
  destruct (init a p) as [r p1]. cbn in H1.
  specialize (IH p1 H1).
  now destruct (constructions rest p1) as [rs p2].
Qed.

(** The class attribute, once set, stays what it is through later
    constructions, and every instance they return is on it. *)
Lemma constructions_reuse (args : list (option string)) (p : Process) (c : MongoClient) :
  MongoDBClient_client p = Some c ->
  (constructions args p).2 = p /\
  forall i inst, (constructions args p).1 !! i = Some (Return inst) -> client inst = c.
Proof.
  intros Hc. induction args as [| a rest [IHp IHr]]; cbn.
  - split; [reflexivity |]. intros i inst Hi. destruct i; discriminate.
  - destruct (init_reuses a p c Hc) as [Hp Hr].
    destruct (init a p) as [r p1]. cbn in Hp, Hr. subst p1.
    destruct (constructions rest p) as [rs p2]. cbn in *.
    split; [exact IHp |].
    intros [| i] inst Hi; cbn in Hi.
    + injection Hi as ->. now destruct (Hr inst eq_refl).
    + exact (IHr i inst Hi).
Qed.

Lemma constructions_from_start (args : list (option string)) (p : Process) :
  MongoDBClient_client p = None ->
  forall i inst, (constructions args p).1 !! i = Some (Return inst) ->
    MongoDBClient_client (constructions args p).2 = Some (client inst).
Proof.
  revert p. induction args as [| a rest IH]; intros p Hn i inst Hi; cbn in *.
  - destruct i; discriminate.
  - pose proof (init_first a p Hn) as H.
    destruct (init a p) as [r p1].
    destruct H as [(Hn1 & _ & e & ->) | (c & Hs1 & _ & Hinst)].
    + specialize (IH p1 Hn1).
      destruct (constructions rest p1) as [rs p2]. cbn in *.
      destruct i as [| i]; [discriminate |]. exact (IH i inst Hi).
    + destruct (constructions_reuse rest p1 c Hs1) as [Hp Hr].
      destruct (constructions rest p1) as [rs p2]. cbn in *. subst p2.
      destruct i as [| i]; cbn in Hi.
      * injection Hi as ->. now rewrite (Hinst inst eq_refl).
      * now rewrite (Hr i inst Hi).
Qed.

(** Once the class attribute holds a client, each later construction ends
    as the driver's answer on the database name decides, on that client. *)
Lemma constructions_on_client (args : list (option string)) (p : Process) (c : MongoClient) :
  MongoDBClient_client p = Some c ->
  forall i arg, args !! i = Some arg ->
    (constructions args p).1 !! i =
      Some match getitem_error (default DATABASE_NAME arg) with
           | Some e => Raise e
           | None =>
               Return {| client := c;
                         database := {| db_client := c;
                                        db_name := default DATABASE_NAME arg |};
                         database_name := default DATABASE_NAME arg |}
           end.
Proof.
  intros Hc. induction args as [| a rest IH]; intros i arg Hi.
  - destruct i; discriminate.
  - cbn. destruct (init_reuses a p c Hc) as [Hp _].
    pose proof (init_eq a p) as Heq. rewrite Hc in Heq. cbn in Heq.
    destruct (init a p) as [r p1]. cbn in Hp. subst p1.
    specialize (IH).
    destruct (constructions rest p) as [rs p2] eqn:Hrest. cbn in *.
    destruct i as [| i]; cbn in Hi |- *.
    + injection Hi as <-. now injection Heq as ->.
    + exact (IH i arg Hi).
Qed.

(** C9: over any series of constructions in a process, the driver hands out
    at most one client; every construction that returns gives an instance
    on that one client, which is the one held by the class attribute; and
    once the first construction has returned, the later ones call the
    driver no more: they leave the process exactly as the first left it.
    When the driver answers the first call, the first construction does
    create the client and store it in the class attribute, that call is the
    only one the driver ever gets, and every construction, the first and
    the later ones, whose database name the driver accepts returns an
    instance on that client. *)
Theorem client_created_at_most_once (args : list (option string)) :
  let (rs, p) := constructions args process_start in
  length (created p) <= 1 /\
  (forall i inst, rs !! i = Some (Return inst) ->
     created p = [client inst] /\ MongoDBClient_client p = Some (client inst)) /\
  match args with
  | [] => True
  | a :: _ =>
      (forall inst p1, init a process_start = (Return inst, p1) ->
         p = p1 /\ driver_calls p1 = [Return (client inst)]) /\
      (MongoClient_error 0 = None ->
         let c := {| client_id := 0; host := mongo_db_url; tlsCAFile := ca |} in
         MongoDBClient_client p = Some c /\
         driver_calls p = [Return c] /\
         forall i arg, args !! i = Some arg ->
           rs !! i =
             Some match getitem_error (default DATABASE_NAME arg) with
                  | Some e => Raise e
                  | None =>
                      Return {| client := c;
                                database := {| db_client := c;
                                               db_name := default DATABASE_NAME arg |};
                                database_name := default DATABASE_NAME arg |}
                  end)
  end.
Proof.
  pose proof (constructions_settled args process_start (or_introl (conj eq_refl eq_refl))) as Hs.
  pose proof (constructions_from_start args process_start eq_refl) as Hf.
  assert (Hfirst :
    match args with
    | [] => True
    | a :: _ =>
        forall inst p1, init a process_start = (Return inst, p1) ->
          (constructions args process_start).2 = p1 /\
          driver_calls p1 = [Return (client inst)]
    end).
  { destruct args as [| a rest]; [exact I |].
    intros inst p1 H1. cbn. rewrite H1.
    pose proof (init_first a process_start eq_refl) as Hi. rewrite H1 in Hi.
    destruct Hi as [(_ & _ & e & He) | (c & Hc & _ & Hinst)]; [discriminate |].
    destruct (constructions_reuse rest p1 c Hc) as [Hp _].
    destruct (constructions rest p1) as [rs p2]. cbn in Hp. subst p2.
    split; [reflexivity |].
    rewrite init_eq in H1. cbn in H1.
    destruct (MongoClient_error 0); [discriminate |].
    destruct (getitem_error (default DATABASE_NAME a)); [discriminate |].
    now injection H1 as <- <-. }
  assert (Hworking :
    match args with
    | [] => True
    | a :: _ =>
        MongoClient_error 0 = None ->
        let c := {| client_id := 0; host := mongo_db_url; tlsCAFile := ca |} in
        MongoDBClient_client (constructions args process_start).2 = Some c /\
        driver_calls (constructions args process_start).2 = [Return c] /\
        forall i arg, args !! i = Some arg ->
          (constructions args process_start).1 !! i =
            Some match getitem_error (default DATABASE_NAME arg) with
                 | Some e => Raise e
                 | None =>
                     Return {| client := c;
                               database := {| db_client := c;
                                              db_name := default DATABASE_NAME arg |};
                               database_name := default DATABASE_NAME arg |}
                 end
    end).
  { destruct args as [| a rest]; [exact I |].
    intros Hdriver c. cbn.
    pose proof (init_eq a process_start) as Heq. cbn in Heq. rewrite Hdriver in Heq.
    fold c in Heq.
    destruct (init a process_start) as [r p1].
    injection Heq as -> ->.
    match goal with
    | |- context [constructions rest ?q] =>
        destruct (constructions_reuse rest q c eq_refl) as [Hp _];
        pose proof (constructions_on_client rest q c eq_refl) as Hrs
    end.
    destruct (constructions rest _) as [rs p2]. cbn in Hp, Hrs |- *. subst p2.
    split; [reflexivity |]. split; [reflexivity |].
    intros [| i] arg Hi; cbn in Hi |- *.
    - now injection Hi as <-.
    - exact (Hrs i arg Hi). }
  destruct (constructions args process_start) as [rs p]. cbn in *.
  split; [| split].
  - destruct Hs as [[_ ->] | [c [_ ->]]]; cbn; lia.
  - intros i inst Hi. specialize (Hf i inst Hi).
    destruct Hs as [[Hn _] | [c [Hc ->]]]; [congruence |].
    split; [| exact Hf]. congruence.
  - destruct args as [| a rest]; [exact I |]. split; [exact Hfirst | exact Hworking].
Qed.

(** C10: a construction that follows one that returned, whatever database
    name it is given, creates nothing and leaves the class attribute alone:
    its instance is on the client of the earlier instance; only its
    database handle and its stored name are those of its own argument. *)
Theorem second_construction_reuses_client (arg1 arg2 : option string)
    (p p1 p2 : Process) (inst1 inst2 : MongoDBClient) :
  init arg1 p = (Return inst1, p1) ->
  init arg2 p1 = (Return inst2, p2) ->
  p2 = p1 /\
  client inst2 = client inst1 /\
  database inst2 = {| db_client := client inst1; db_name := default DATABASE_NAME arg2 |} /\
  database_name inst2 = default DATABASE_NAME arg2.
Proof.
  intros H1 H2.
  assert (Hc : MongoDBClient_client p1 = Some (client inst1)).
  { destruct (MongoDBClient_client p) as [c|] eqn:Hp.
    - destruct (init_reuses arg1 p c Hp) as [Hp1 Hi].
      rewrite H1 in Hp1, Hi. cbn in Hp1, Hi. subst p1.
      destruct (Hi inst1 eq_refl) as [-> _]. exact Hp.
    - pose proof (init_first arg1 p Hp) as H. rewrite H1 in H.
      destruct H as [(_ & _ & e & He) | (c & Hs & _ & Hi)]; [discriminate |].
      now rewrite (Hi inst1 eq_refl). }
  destruct (init_reuses arg2 p1 _ Hc) as [Hp2 Hi].
  rewrite H2 in Hp2, Hi. cbn in Hp2, Hi.
  split; [exact Hp2 |]. exact (Hi inst2 eq_refl).
Qed.

End ClientFacts.
End MongoDBFacts.

Section Balancing.
Context `{Env : Environment}.

Lemma c_concat_Return (X v : ndarray) (y : Series) :
  c_ X y = Return v -> v = X ++ [y].
Proof. unfold c_. destruct (forallb _ X); congruence. Qed.

(** X10: what the stage itself does around the balancing step: in a run that
    completes, the resampler is called once per split, train first, each
    call drawing from the generator as the previous one left it, and each
    saved array is the resampled features with the resampled labels as the
    last column.  How many rows of each class those labels hold is the
    resampler's doing. *)
Lemma saved_arrays_come_from_resampler (self : DataTransformation) (w : World) :
  let (o, w') := initiate_data_transformation self w in
  forall a, o = Return a ->
    exists evs X_train y_train X_test y_test Xr_train yr_train Xr_test yr_test g1 g2,
      trace w' = evs ++ trace w /\
      smt_fit_resample (rng w) X_train y_train = (Return (Xr_train, yr_train), g1) /\
      smt_fit_resample g1 X_test y_test = (Return (Xr_test, yr_test), g2) /\
      rng w' = g2 /\
      In (Returned (Call_save_numpy_array_data
                      (cfg_transformed_train_file_path (data_transformation_config self))
                      (Xr_train ++ [yr_train]))) evs /\
      In (Returned (Call_save_numpy_array_data
                      (cfg_transformed_test_file_path (data_transformation_config self))
                      (Xr_test ++ [yr_test]))) evs.
Proof.
  apply wp_outcome.
  run_stage.
  all: intros a Ha; first [ discriminate Ha | idtac ].
  repeat match goal with
         | H : c_ _ _ = Return _ |- _ => apply c_concat_Return in H; subst
         end.
  lazymatch goal with
  | |- exists evs, _ =>
      lazymatch goal with
      | |- context [?l = _ ++ trace w] =>
          let p := prefix_of l (trace w) in exists p
      end
  end.
  do 10 eexists.
  split; [ reflexivity | ].
  split; [ eassumption | ].
  split; [ eassumption | ].
  split; [ reflexivity | ].
  split; cbn; tauto.
Qed.

End Balancing.

(** ** The theorems at concrete inputs *)

Lemma outcome_pair {A B} (p : A * B) (a : A) : p.1 = a -> p = (a, p.2).
Proof. intros <-. apply surjective_pairing. Qed.

Section Concrete.
#[local] Existing Instance Example.env.
#[local] Existing Instance Example.driver.

Lemma unmapped_label_reaches_resampler_witness :
  let w := Example.disk Example.yes_no_train Example.yes_no_test in
  let labels := Str <$> ["no"; "no"; "yes"; "no"; "yes"; "no"; "yes"; "no"; "yes"; "no";
                         "yes"; "no"; "yes"; "no"] in
  let d := TargetValueMapping_to_dict (Environment := Example.env) in
  Str "yes" ∈ replace labels d /\
  let (o, w') := initiate_data_transformation (Env := Example.env) Example.self w in
  exists evs,
    trace w' = evs ++ trace w /\
    match o with
    | Return _ => exists y_test, resample_labels evs = [y_test; replace labels d]
    | Raise e =>
        (exists c cause rest, evs = Raised c cause :: rest /\ wraps e cause) /\
        (resample_labels evs = [] \/
         resample_labels evs = [replace labels d] \/
         exists y_test, resample_labels evs = [y_test; replace labels d])
    end.
Proof.
  apply (unmapped_label_reaches_resampler (Env := Example.env) Example.self
           (Example.disk Example.yes_no_train Example.yes_no_test)
           Example.yes_no_train _ "yes").
  - vm_compute. reflexivity.
  - reflexivity.
  - apply list_elem_of_lookup. exists 2. reflexivity.
  - vm_compute. reflexivity.
Defined.

Lemma fitted_state_from_train_features_only_witness :
  let w := Example.disk Example.train_table Example.test_table in
  let (o, w') := initiate_data_transformation (Env := Example.env) Example.self w in
  exists evs,
    trace w' = evs ++ trace w /\
    (fit_inputs evs = [] \/
     fit_inputs evs = [values (features (Env := Example.env) Example.train_table)]) /\
    Forall (fun obj =>
              Pipeline_fit [("Imputer", SimpleImputer (Int 0)); ("RobustScaler", RobustScaler)]
                (values (features (Env := Example.env) Example.train_table)) = Return obj)
           (states_used evs) /\
    (forall a, o = Return a ->
       exists obj test_df,
         fs w !! "artifact/validated/test.csv" = Some (CsvFile test_df) /\
         preprocessor_calls evs =
           [Call_save_object "artifact/transformed/preprocessing.pkl" obj;
            Call_transform obj (values (features (Env := Example.env) test_df));
            Call_transform obj (values (features (Env := Example.env) Example.train_table));
            Call_fit (values (features (Env := Example.env) Example.train_table))] /\
         fs w' !! "artifact/transformed/preprocessing.pkl" = Some (PklFile obj)).
Proof.
  apply (fitted_state_from_train_features_only (Env := Example.env) Example.self
           (Example.disk Example.train_table Example.test_table) Example.train_table).
  vm_compute. reflexivity.
Defined.

Lemma imputation_is_identity_without_missing_witness :
  let X : ndarray := [[Float 1; Float 2; Float 4]; [Int 7; Float 30; Float 20]] in
  match get_data_transformer_object (Env := Example.env)
          (Example.disk Example.train_table Example.test_table) with
  | (Return preprocessor, _) =>
      impute (Int 0) X = X /\
      (p <- Pipeline_fit preprocessor X ;; Pipeline_transform p X)%result
        = (st <- scaler_fit X ;; scaler_transform st X)%result /\
      (forall X_train obj,
         Pipeline_fit preprocessor X_train = Return obj ->
         exists st,
           scaler_fit (impute (Int 0) X_train) = Return st /\
           Pipeline_transform obj X = scaler_transform st X)
  | (Raise _, _) => False
  end.
Proof.
  apply (imputation_is_identity_without_missing (Env := Example.env)).
  repeat constructor.
Defined.

Lemma artifact_holds_config_paths_witness :
  let a := {| transformed_object_file_path := "artifact/transformed/preprocessing.pkl";
              transformed_train_file_path := "artifact/transformed/train.npy";
              transformed_test_file_path := "artifact/transformed/test.npy" |} in
  let r := initiate_data_transformation Example.self
             (Example.disk Example.train_table Example.test_table) in
  r = (Return a, r.2) /\
  a = {| transformed_object_file_path :=
           cfg_transformed_object_file_path (data_transformation_config Example.self);
         transformed_train_file_path :=
           cfg_transformed_train_file_path (data_transformation_config Example.self);
         transformed_test_file_path :=
           cfg_transformed_test_file_path (data_transformation_config Example.self) |}.
Proof.
  intros a r.
  assert (Hrun : r = (Return a, r.2)).
  { apply outcome_pair. vm_compute. reflexivity. }
  split; [ exact Hrun | ].
  exact (artifact_holds_config_paths Example.self
           (Example.disk Example.train_table Example.test_table) r.2 a Hrun).
Defined.

Lemma second_construction_reuses_client_witness :
  exists inst1 inst2 p1,
    MongoDB.init (Drv := Example.driver) None MongoDB.process_start = (Return inst1, p1) /\
    MongoDB.init (Drv := Example.driver) (Some "telemetry") p1 = (Return inst2, p1) /\
    MongoDB.client inst2 = MongoDB.client inst1 /\
    MongoDB.database inst2 =
      {| MongoDB.db_client := MongoDB.client inst1; MongoDB.db_name := "telemetry" |} /\
    MongoDB.database_name inst2 = "telemetry" /\
    MongoDB.database_name inst1 = "sensor".
Proof.
  eexists _, _, _.
  split; [ reflexivity | ].
  split; [ reflexivity | ].
  destruct (MongoDBFacts.second_construction_reuses_client (Drv := Example.driver)
              None (Some "telemetry") MongoDB.process_start _ _ _ _ eq_refl eq_refl)
    as (_ & Hclient & Hdb & Hname).
  split; [ exact Hclient | ].
  split; [ exact Hdb | ].
  split; [ exact Hname | reflexivity ].
Defined.

(** ** Runs that fail *)

(** The test table is missing: the error of [read_csv] is wrapped by
    [read_data], and again by the stage. *)
Example missing_test_table :
  (initiate_data_transformation (Env := Example.env) Example.self
     (Example.disk_without_test Example.train_table)).1
  = Raise (SensorException (SensorException
             (PyExc "FileNotFoundError" "artifact/validated/test.csv"))).
Proof. vm_compute. reflexivity. Qed.

(** The test array cannot be written: the run raises, the train array it
    wrote just before stays on disk, and the preprocessor is not saved. *)
Example failed_write_leaves_train_array :
  let r := initiate_data_transformation (Env := Example.env_test_unwritable) Example.self
             (Example.disk Example.train_table Example.test_table) in
  r.1 = Raise (SensorException (PyExc "OSError" "artifact/transformed/test.npy")) /\
  from_option (fun _ => true) false (fs r.2 !! "artifact/transformed/train.npy") = true /\
  fs r.2 !! "artifact/transformed/test.npy" = None /\
  fs r.2 !! "artifact/transformed/preprocessing.pkl" = None.
Proof.
  repeat split; vm_compute; reflexivity.
Qed.

(** The label column is absent: [drop] raises [KeyError]. *)
Example missing_label_column :
  (initiate_data_transformation (Env := Example.env) Example.self
     (Example.disk [("sensor1", [Float 1; Float 2])] Example.test_table)).1
  = Raise (SensorException (PyExc "KeyError" "class")).
Proof. vm_compute. reflexivity. Qed.

End Concrete.

(** * Further properties of the stage and of the client *)

(** ** Tables: dropping and reading a column *)

Section TableFacts.

Lemma getitem_column (df : DataFrame) (col : string) :
  col ∈ df.*1 -> exists s, getitem df col = Return s /\ (col, s) ∈ df.
Proof.
  induction df as [| [name s] rest IH]; cbn; intros Hin.
  - now apply elem_of_nil in Hin.
  - case_decide as Hname.
    + subst. exists s. split; [reflexivity | left].
    + apply elem_of_cons in Hin as [Heq | Hin]; [congruence |].
      destruct (IH Hin) as (s' & Hs & Hmem). exists s'. split; [exact Hs | now right].
Qed.

Lemma drop_getitem_consistent (df v : DataFrame) (col : string) (e : exn) :
  drop df col = Return v -> getitem df col = Raise e -> False.
Proof.
  unfold drop. case_decide as Hin; [| discriminate].
  intros _ Hget. destruct (getitem_column df col Hin) as (s & Hs & _). congruence.
Qed.

(** ** Concatenation *)

Lemma c_Return_rectangular (X A : ndarray) (y : Series) :
  c_ X y = Return A -> A = X ++ [y] /\ rectangular A.
Proof.
  unfold c_. destruct (forallb _ X) eqn:Hall; [| discriminate].
  intros [= <-]. split; [reflexivity |].
  exists y. split; [ apply last_snoc | ].
  apply Forall_app. split; [| now constructor].
  apply Forall_forall. intros col Hcol.
  rewrite forallb_forall in Hall.
  apply Nat.eqb_eq, Hall. now apply list_elem_of_In.
Qed.

End TableFacts.

(** ** The preprocessor *)

Section PreprocessorShape.
Context `{Env : Environment}.

Lemma impute_cell_not_missing (fill_value c : cell) :
  isna fill_value = false -> isna (impute_cell fill_value c) = false.
Proof. unfold impute_cell. intros Hfill. now destruct (isna c) eqn:Hc. Qed.

Lemma impute_no_missing_after (fill_value : cell) (X : ndarray) :
  isna fill_value = false -> no_missing (impute fill_value X).
Proof.
  intros Hfill. unfold no_missing, impute.
  apply Forall_fmap, Forall_forall. intros col _. cbn.
  apply Forall_fmap, Forall_forall. intros c _. cbn.
  now apply impute_cell_not_missing.
Qed.

(** X2: the pipeline built by [get_data_transformer_object] is the scaler
    behind the imputation with zero: building it raises nothing and leaves
    the world alone; fitting it is fitting the scaler on the imputed table,
    which has no missing entry; and the fitted pipeline applied to a table
    is the fitted scaler applied to that table imputed. *)
Theorem preprocessor_is_scaler_after_imputation (w : World) :
  match get_data_transformer_object w with
  | (Return preprocessor, w') =>
      w' = w /\
      forall X,
        no_missing (impute (Int 0) X) /\
        Pipeline_fit preprocessor X =
          (st <- scaler_fit (impute (Int 0) X) ;;
           Return [("Imputer", SimpleImputer_fitted (Int 0));
                   ("RobustScaler", RobustScaler_fitted st)])%result /\
        forall st X',
          Pipeline_transform [("Imputer", SimpleImputer_fitted (Int 0));
                              ("RobustScaler", RobustScaler_fitted st)] X'
            = scaler_transform st (impute (Int 0) X')
  | (Raise _, _) => False
  end.
Proof.
  cbn. split; [reflexivity |]. intros X. split; [| split].
  - now apply impute_no_missing_after.
  - now destruct (scaler_fit (impute (Int 0) X)).
  - intros st X'. now destruct (scaler_transform st (impute (Int 0) X')).
Qed.

End PreprocessorShape.

(** ** The run, call by call *)

(** [run_stage], using what is known of a missing file. *)
Ltac stage_split_missing :=
  match goal with
  | H : fs ?w !! ?p = None |- context [match fs ?w !! ?p with _ => _ end] =>
      rewrite H
  end.

Ltac run_stage_known :=
  unfold initiate_data_transformation, transformation_body, read_data,
    get_data_transformer_object, save_numpy_array_data, save_object, fit, transform;
  repeat (first [ stage_step | stage_split_missing | stage_split ];
          cbv beta iota; cbn [fs rng trace emit fst snd]).

(** No event of an explicit list is the one assumed to be in it. *)
Ltac not_among Hin :=
  cbn [In] in Hin;
  repeat (destruct Hin as [Hin | Hin]; [ try discriminate Hin | ]);
  try contradiction.

Section RunFacts.
Context `{Env : Environment}.

Lemma wp_run_eq {A} (m : M A) (x : result A * World) (w : World) :
  wp m (fun o w' => (o, w') = x) w -> m w = x.
Proof. unfold wp. now destruct (m w). Qed.

(** X1: when the train table is missing, the run stops at once: it raises
    the [FileNotFoundError] of [read_csv] wrapped twice, by [read_data] and
    by the stage, having logged its first line and made that one call; the
    test table is not read, and files and generator are as they were. *)
Theorem missing_train_table_stops_the_run (self : DataTransformation) (w : World) :
  fs w !! valid_train_file_path (data_validation_artifact self) = None ->
  initiate_data_transformation self w =
    (Raise (SensorException (SensorException
              (PyExc "FileNotFoundError"
                 (valid_train_file_path (data_validation_artifact self))))),
     {| fs := fs w;
        rng := rng w;
        trace :=
          Raised (Call_read_csv (valid_train_file_path (data_validation_artifact self)))
            (PyExc "FileNotFoundError"
               (valid_train_file_path (data_validation_artifact self)))
          :: Info "Data transformation Started " :: trace w |}).
Proof.
  intros Hmissing. apply wp_run_eq.
  run_stage_known.
  reflexivity.
Qed.

(** X6: the lookup of the label column is never the call that fails: when
    the run reaches it, [drop] has already found the column in the same
    table. *)
Theorem label_lookup_never_fails (self : DataTransformation) (w : World) :
  let (o, w') := initiate_data_transformation self w in
  exists evs,
    trace w' = evs ++ trace w /\
    forall df col e, ~ In (Raised (Call_getitem df col) e) evs.
Proof.
  apply wp_outcome.
  run_stage.
  all: try (exfalso; eapply drop_getitem_consistent; eassumption).
  all: lazymatch goal with
       | |- exists evs, ?l = _ /\ _ =>
           let p := prefix_of l (trace w) in
           exists p; split; [reflexivity | ]
       end.
  all: intros df' col' e' Hin; not_among Hin.
Qed.

(** X7: whatever its outcome, the run changes no file other than those at
    the three output paths of its configuration. *)
Theorem run_touches_only_output_paths (self : DataTransformation) (w : World) :
  let (o, w') := initiate_data_transformation self w in
  forall file_path,
    file_path <> cfg_transformed_train_file_path (data_transformation_config self) ->
    file_path <> cfg_transformed_test_file_path (data_transformation_config self) ->
    file_path <> cfg_transformed_object_file_path (data_transformation_config self) ->
    fs w' !! file_path = fs w !! file_path.
Proof.
  apply wp_outcome.
  run_stage.
  all: intros file_path Htrain Htest Hobj.
  all: rewrite ?lookup_insert_ne by congruence.
  all: reflexivity.
Qed.

(** X8: what a run that completes leaves at its output paths.  The three
    writes are made in the order train array, test array, preprocessor, so
    a later write replaces an earlier one at the same path: the object path
    always holds the preprocessor; the test path holds the test array
    unless it is the object path; the train path holds the train array
    only when it differs from the other two. *)
Theorem later_write_wins_at_shared_path (self : DataTransformation) (w : World) :
  let (o, w') := initiate_data_transformation self w in
  forall a, o = Return a ->
    let train_path := cfg_transformed_train_file_path (data_transformation_config self) in
    let test_path := cfg_transformed_test_file_path (data_transformation_config self) in
    let object_path := cfg_transformed_object_file_path (data_transformation_config self) in
    exists evs train_arr test_arr obj,
      trace w' = evs ++ trace w /\
      List.filter (fun ev => match ev with
                             | Returned (Call_save_numpy_array_data _ _)
                             | Returned (Call_save_object _ _) => true
                             | _ => false
                             end) evs
        = [Returned (Call_save_object object_path obj);
           Returned (Call_save_numpy_array_data test_path test_arr);
           Returned (Call_save_numpy_array_data train_path train_arr)] /\
      fs w' !! object_path = Some (PklFile obj) /\
      (test_path <> object_path -> fs w' !! test_path = Some (NpyFile test_arr)) /\
      (train_path <> test_path -> train_path <> object_path ->
         fs w' !! train_path = Some (NpyFile train_arr)) /\
      (train_path = test_path -> train_path <> object_path ->
         fs w' !! train_path = Some (NpyFile test_arr)).
Proof.
  apply wp_outcome.
  run_stage.
  all: intros a Ha; first [ discriminate Ha | idtac ].
  lazymatch goal with
  | |- context [?l = _ ++ trace w] =>
      let p := prefix_of l (trace w) in exists p
  end.
  do 3 eexists.
  split; [ reflexivity | ].
  split; [ reflexivity | ].
  split; [ apply lookup_insert_eq | ].
  split; [| split].
  - intros Hne. rewrite lookup_insert_ne by congruence. apply lookup_insert_eq.
  - intros Hne1 Hne2. rewrite !lookup_insert_ne by congruence. apply lookup_insert_eq.
  - intros Heq Hne. rewrite lookup_insert_ne by congruence.
    rewrite Heq. apply lookup_insert_eq.
Qed.


(** X11: every array the run saves is rectangular: its last column is a
    label column and all its columns have that column's length. *)
Theorem saved_arrays_are_rectangular (self : DataTransformation) (w : World) :
  let (o, w') := initiate_data_transformation self w in
  exists evs,
    trace w' = evs ++ trace w /\
    forall file_path array,
      In (Returned (Call_save_numpy_array_data file_path array)) evs ->
      rectangular array.
Proof.
  apply wp_outcome.
  run_stage.
  all: repeat match goal with
         | H : c_ _ _ = Return _ |- _ => apply c_Return_rectangular in H; destruct H as [_ H]
         end.
  all: lazymatch goal with
       | |- exists evs, ?l = _ /\ _ =>
           let p := prefix_of l (trace w) in
           exists p; split; [reflexivity | ]
       end.
  all: intros file_path array Hin; cbn [In] in Hin;
       repeat (destruct Hin as [Hin | Hin];
               [ first [ discriminate Hin | injection Hin as <- <-; assumption ] | ]);
       contradiction.
Qed.

(** X12: the log of a run is the beginning of the log of a run that goes
    through: all of it when the run returns, in which case its last line
    reports success, and strictly less when the run raises. *)
Theorem failed_log_is_a_strict_prefix (self : DataTransformation) (w : World) :
  let (o, w') := initiate_data_transformation self w in
  exists evs,
    trace w' = evs ++ trace w /\
    log_of evs `prefix_of` full_log self /\
    match o with
    | Return _ => log_of evs = full_log self
    | Raise _ => length (log_of evs) < length (full_log self)
    end.
Proof.
  apply wp_outcome.
  run_stage.
  all: lazymatch goal with
       | |- exists evs, ?l = _ /\ _ =>
           let p := prefix_of l (trace w) in
           exists p; split; [reflexivity | ]
       end.
  all: unfold log_of, full_log; cbn [List.filter is_log rev app length].
  all: split; [ eexists; reflexivity | first [ reflexivity | lia ] ].
Qed.

End RunFacts.

Section BalancingInputs.
Context `{Env : Environment}.

(** X15: in a run that completes, the balancing step is applied to each
    split, the test split included: first to the transformed train features
    with the mapped train labels, then to the transformed test features with
    the mapped test labels, the features of both splits transformed by the
    one fitted preprocessor. *)
Theorem both_splits_are_resampled (self : DataTransformation) (w : World) :
  let (o, w') := initiate_data_transformation self w in
  forall a, o = Return a ->
    exists evs train_df test_df y_train y_test obj Xt_train Xt_test,
      trace w' = evs ++ trace w /\
      fs w !! valid_train_file_path (data_validation_artifact self) = Some (CsvFile train_df) /\
      fs w !! valid_test_file_path (data_validation_artifact self) = Some (CsvFile test_df) /\
      getitem train_df TARGET_COLUMN = Return y_train /\
      getitem test_df TARGET_COLUMN = Return y_test /\
      Pipeline_transform obj (values (features train_df)) = Return Xt_train /\
      Pipeline_transform obj (values (features test_df)) = Return Xt_test /\
      omap (fun ev => match call_of ev with
                      | Some (Call_fit_resample X y) => Some (X, y)
                      | _ => None
                      end) evs
        = [(Xt_test, replace y_test TargetValueMapping_to_dict);
           (Xt_train, replace y_train TargetValueMapping_to_dict)].
Proof.
  apply wp_outcome.
  run_stage.
  all: intros a Ha; first [ discriminate Ha | idtac ].
  repeat match goal with
         | H : drop _ _ = Return _ |- _ => apply drop_Return in H; subst
         end.
  lazymatch goal with
  | |- context [?l = _ ++ trace w] =>
      let p := prefix_of l (trace w) in exists p
  end.
  do 7 eexists.
  split; [ reflexivity | ].
  split; [ reflexivity | ].
  split; [ reflexivity | ].
  split; [ eassumption | ].
  split; [ eassumption | ].
  split; [ eassumption | ].
  split; [ eassumption | ].
  reflexivity.
Qed.

End BalancingInputs.

(** ** The client: failures *)

Module MongoDBFailures.
Import MongoDB.

Section ClientFailures.
Context `{Drv : Driver}.

Lemma constructions_while_down (args : list (option string)) (p : Process) :
  MongoDBClient_client p = None ->
  (forall i, i < length args -> is_Some (MongoClient_error (length (driver_calls p) + i))) ->
  let (rs, p') := constructions args p in
  MongoDBClient_client p' = None /\
  created p' = created p /\
  length (driver_calls p') = length (driver_calls p) + length args /\
  length rs = length args /\
  forall i r, rs !! i = Some r ->
    exists e, MongoClient_error (length (driver_calls p) + i) = Some e /\ r = Raise e.
Proof.
  revert p. induction args as [| a rest IH]; intros p Hnone Hdown; cbn.
  - split; [exact Hnone |]. split; [reflexivity |]. split; [lia |]. split; [reflexivity |].
    intros i r Hi. destruct i; discriminate.
  - rewrite MongoDBFacts.init_eq, Hnone. cbn.
    destruct (Hdown 0 ltac:(cbn; lia)) as [e He]. rewrite Nat.add_0_r in He.
    rewrite He.
    specialize (IH {| MongoDBClient_client := None;
                      driver_calls := Raise e :: driver_calls p |} eq_refl).
    cbn in IH.
    assert (Hrest : forall i, i < length rest ->
              is_Some (MongoClient_error (S (length (driver_calls p) + i)))).
    { intros i Hi. replace (S (length (driver_calls p) + i))
        with (length (driver_calls p) + S i) by lia.
      apply Hdown. cbn. lia. }
    specialize (IH Hrest).
    destruct (constructions rest _) as [rs p'].
    destruct IH as (Hc & Hcr & Hlen & Hrs & Hall).
    split; [exact Hc |]. split; [exact Hcr |]. split; [cbn; lia |].
    split; [cbn; lia |].
    intros [| i] r Hi; cbn in Hi.
    + injection Hi as <-. exists e. now rewrite Nat.add_0_r.
    + destruct (Hall i r Hi) as (e' & He' & ->). exists e'.
      split; [| reflexivity].
      now replace (length (driver_calls p) + S i) with (S (length (driver_calls p) + i)) by lia.
Qed.

(** X13: while the driver cannot connect, every construction calls it
    again and raises the driver's own exception, not wrapped in anything;
    the class attribute stays [None] and no client exists. *)
Theorem failed_connections_are_retried (args : list (option string)) :
  (forall i, i < length args -> is_Some (MongoClient_error i)) ->
  let (rs, p) := constructions args process_start in
  MongoDBClient_client p = None /\
  created p = [] /\
  length (driver_calls p) = length args /\
  length rs = length args /\
  forall i r, rs !! i = Some r -> exists e, MongoClient_error i = Some e /\ r = Raise e.
Proof.
  intros Hdown.
  pose proof (constructions_while_down args process_start eq_refl Hdown) as H.
  destruct (constructions args process_start) as [rs p].
  exact H.
Qed.

(** X14: a construction whose database name the driver refuses raises the
    driver's exception, yet the client it has just created stays in the
    class attribute: the next construction makes no driver call and its
    instance is on that client. *)
Theorem refused_name_keeps_the_connection (arg1 arg2 : option string) (p : Process)
    (e : exn) :
  MongoDBClient_client p = None ->
  MongoClient_error (length (driver_calls p)) = None ->
  getitem_error (default DATABASE_NAME arg1) = Some e ->
  let (r1, p1) := init arg1 p in
  r1 = Raise e /\
  exists c,
    MongoDBClient_client p1 = Some c /\
    driver_calls p1 = Return c :: driver_calls p /\
    (init arg2 p1).2 = p1 /\
    forall inst, (init arg2 p1).1 = Return inst -> client inst = c.
Proof.
  intros Hnone Hconnect Hrefused.
  rewrite MongoDBFacts.init_eq, Hnone. cbn. rewrite Hconnect, Hrefused.
  split; [reflexivity |]. eexists. split; [reflexivity |]. split; [reflexivity |].
  match goal with
  | |- context [init arg2 ?q] =>
      destruct (MongoDBFacts.init_reuses arg2 q _ eq_refl) as [Hsame Hinst]
  end.
  split; [ exact Hsame | ].
  intros inst Hr. now destruct (Hinst inst Hr).
Qed.

End ClientFailures.
End MongoDBFailures.

(** ** The further theorems at concrete inputs *)

Section MoreConcrete.
#[local] Existing Instance Example.env.

Lemma missing_train_table_stops_the_run_witness :
  initiate_data_transformation Example.self MoreExample.empty_disk =
    (Raise (SensorException (SensorException
              (PyExc "FileNotFoundError" "artifact/validated/train.csv"))),
     {| fs := ∅;
        rng := 0%N;
        trace :=
          [Raised (Call_read_csv "artifact/validated/train.csv")
             (PyExc "FileNotFoundError" "artifact/validated/train.csv");
           Info "Data transformation Started "] |}).
Proof.
  apply (missing_train_table_stops_the_run Example.self MoreExample.empty_disk).
  reflexivity.
Defined.

Lemma failed_connections_are_retried_witness :
  let (rs, p) := MongoDB.constructions (Drv := MoreExample.driver_down)
                   [None; Some "telemetry"; None] MongoDB.process_start in
  MongoDB.MongoDBClient_client p = None /\
  MongoDB.created p = [] /\
  length (MongoDB.driver_calls p) = 3 /\
  length rs = 3 /\
  forall i r, rs !! i = Some r ->
    exists e, MongoDB.MongoClient_error (Driver := MoreExample.driver_down) i = Some e /\
              r = Raise e.
Proof.
  apply (MongoDBFailures.failed_connections_are_retried (Drv := MoreExample.driver_down)
           [None; Some "telemetry"; None]).
  intros i _. eexists. reflexivity.
Defined.

Lemma refused_name_keeps_the_connection_witness :
  let (r1, p1) := MongoDB.init (Drv := Example.driver) (Some "") MongoDB.process_start in
  r1 = Raise (PyExc "InvalidName" "database name cannot be the empty string") /\
  exists c,
    MongoDB.MongoDBClient_client p1 = Some c /\
    MongoDB.driver_calls p1 = Return c :: MongoDB.driver_calls MongoDB.process_start /\
    (MongoDB.init (Drv := Example.driver) None p1).2 = p1 /\
    forall inst, (MongoDB.init (Drv := Example.driver) None p1).1 = Return inst ->
      MongoDB.client inst = c.
Proof.
  apply (MongoDBFailures.refused_name_keeps_the_connection (Drv := Example.driver)
           (Some "") None MongoDB.process_start); reflexivity.
Defined.

(** Three constructions with a driver that connects: one driver call, one
    client, and the three instances on it, each with its own database. *)
Example three_constructions_one_client :
  let c := {| MongoDB.client_id := 0;
              MongoDB.host := "mongodb+srv://cluster.example.net/";
              MongoDB.tlsCAFile := "cacert.pem" |} in
  let on name := Return {| MongoDB.client := c;
                           MongoDB.database := {| MongoDB.db_client := c;
                                                  MongoDB.db_name := name |};
                           MongoDB.database_name := name |} in
  MongoDB.constructions (Drv := Example.driver)
    [None; Some "telemetry"; None] MongoDB.process_start
  = ([on "sensor"; on "telemetry"; on "sensor"],
     {| MongoDB.MongoDBClient_client := Some c;
        MongoDB.driver_calls := [Return c] |}).
Proof. reflexivity. Qed.

End MoreConcrete.
